(** * fiberzerolog: configuration resolution and log-record assembly

    A shallow embedding of [fiberzerolog/config.go]: the field tags, the
    [Config] struct, [loggerCtx], [logger] and [configDefault], together
    with the small part of the two collaborating libraries (zerolog's
    [Context] builder and fiber's [Ctx] accessors) that the code calls. *)

From Stdlib Require Import String List ZArith Bool Lia.
From Stdlib.Strings Require Import Byte.
From Stdlib Require Import Permutation.
Import ListNotations.
Open Scope string_scope.
Open Scope list_scope.

(** ** Go's [error] values

    A handler's error reaches [logger] as an interface value; [None] is the
    nil interface.  A non-nil interface is told apart the way zerolog's
    [Context.AnErr] does, by its type switch: an error that marshals itself
    (a [LogObjectMarshaler]), an error whose dynamic value is a nil
    pointer, and every other error, known by its [Error()] message. *)
Inductive GoError : Set :=
| MarshalerError (object : string)
| NilValueError
| PlainError (message : string).

(** ** zerolog, as far as config.go uses it

    A [zerolog.Context] is an append-only buffer of key/value pairs: every
    typed adder appends one pair after the pairs already present, and
    nothing is ever removed or deduplicated.  Order and duplicates matter,
    so the buffer is an association list. *)
Module Zerolog.

Inductive Level : Set :=
| DebugLevel | InfoLevel | WarnLevel | ErrorLevel | FatalLevel
| PanicLevel | NoLevel | Disabled | TraceLevel.

(** The typed values config.go attaches; [VObject] is what an error that
    marshals itself writes. *)
Inductive Value : Set :=
| VStr (s : string)
| VInt (n : Z)
| VDur (d : Z)
| VBytes (b : list byte)
| VStringer (s : string)
| VObject (o : string).

Definition Context : Set := list (string * Value).

Record Logger : Set := mkLogger { context : Context }.

(** [l.With()] *)
Definition With (l : Logger) : Context := context l.

(** [zc.Logger()] *)
Definition ToLogger (zc : Context) : Logger := mkLogger zc.

Definition Str (key val : string) (zc : Context) : Context :=
  zc ++ [(key, VStr val)].
Definition Int (key : string) (i : Z) (zc : Context) : Context :=
  zc ++ [(key, VInt i)].
Definition Dur (key : string) (d : Z) (zc : Context) : Context :=
  zc ++ [(key, VDur d)].
Definition Bytes (key : string) (val : list byte) (zc : Context) : Context :=
  zc ++ [(key, VBytes val)].
Definition Stringer (key val : string) (zc : Context) : Context :=
  zc ++ [(key, VStringer val)].

(** [zc.Object(key, obj)] *)
Definition Object (key obj : string) (zc : Context) : Context :=
  zc ++ [(key, VObject obj)].

(** [zerolog.ErrorFieldName], at its initial value. *)
Definition ErrorFieldName : string := "error".

(** [zc.AnErr(key, err)] for a non-nil [err], with [ErrorMarshalFunc] at
    its initial value, the identity: an error that marshals itself is
    written as an object, an error holding a nil pointer is dropped, any
    other error is written as the string [err.Error()]. *)
Definition AnErr (key : string) (e : GoError) (zc : Context) : Context :=
  match e with
  | MarshalerError obj => Object key obj zc
  | NilValueError => zc
  | PlainError msg => Str key msg zc
  end.

(** [zc.Err(err)] for a non-nil [err]. *)
Definition Err (e : GoError) (zc : Context) : Context :=
  AnErr ErrorFieldName e zc.

Definition keys (zc : Context) : list string := map fst zc.

End Zerolog.

(** ** fiber, as far as config.go uses it

    A [*fiber.Ctx] is read through accessors only; the record holds what
    each accessor returns for the request at hand.  [fc.Port()] returns
    only for a request whose remote address is a TCP address and panics
    otherwise; [Port] is its result on a TCP connection, and a request on
    another kind of connection is outside what a [Ctx] describes. *)
Module Fiber.

Definition HeaderReferer : string := "Referer".
Definition HeaderXForwardedFor : string := "X-Forwarded-For".
Definition HeaderUserAgent : string := "User-Agent".
Definition HeaderXRequestID : string := "X-Request-ID".

Record Ctx : Type := mkCtx {
  Get : string -> string;                (* fc.Get(key) *)
  GetRespHeader : string -> string;      (* fc.GetRespHeader(key) *)
  Protocol : string;
  Port : string;
  IP : string;
  Hostname : string;
  Path : string;
  OriginalURL : string;
  Method : string;
  RoutePath : string;                    (* fc.Route().Path *)
  StatusCode : Z;                        (* fc.Response().StatusCode() *)
  ResponseBody : list byte;              (* fc.Response().Body() *)
  RequestBody : list byte;               (* fc.Request().Body() *)
  Body : list byte;                      (* fc.Body() *)
  QueryArgs : string;                    (* fc.Request().URI().QueryArgs() *)
  ReqHeaders : list (list byte * list byte)
                                         (* pairs visited by Header.VisitAll *)
}.

End Fiber.

Import Zerolog Fiber.

(** ** The field tags (config.go, lines 11-34) *)

Definition FieldReferer : string := "referer".
Definition FieldProtocol : string := "protocol".
Definition FieldPID : string := "pid".
Definition FieldPort : string := "port".
Definition FieldIP : string := "ip".
Definition FieldIPs : string := "ips".
Definition FieldHost : string := "host".
Definition FieldPath : string := "path".
Definition FieldURL : string := "url".
Definition FieldUserAgent : string := "ua".
Definition FieldLatency : string := "latency".
Definition FieldStatus : string := "status".
Definition FieldResBody : string := "resBody".
Definition FieldQueryParams : string := "queryParams".
Definition FieldBody : string := "body".
Definition FieldBytesReceived : string := "bytesReceived".
Definition FieldBytesSent : string := "bytesSent".
Definition FieldRoute : string := "route".
Definition FieldMethod : string := "method".
Definition FieldRequestID : string := "requestId".
Definition FieldError : string := "error".
Definition FieldReqHeaders : string := "reqHeaders".

(** The constants of the [const] block, in declaration order. *)
Definition FieldTags : list string :=
  [ FieldReferer; FieldProtocol; FieldPID; FieldPort; FieldIP; FieldIPs;
    FieldHost; FieldPath; FieldURL; FieldUserAgent; FieldLatency;
    FieldStatus; FieldResBody; FieldQueryParams; FieldBody;
    FieldBytesReceived; FieldBytesSent; FieldRoute; FieldMethod;
    FieldRequestID; FieldError; FieldReqHeaders ].

(** ** Config (config.go, lines 37-101)

    Go distinguishes a nil slice, function or pointer from a present one;
    a present slice may still be empty.  Every nilable option is an
    [option]: [None] is nil, [Some []] is the empty non-nil slice. *)
Record Config : Type := mkConfig {
  Next : option (Ctx -> bool);
  SkipBody : option (Ctx -> bool);
  SkipResBody : option (Ctx -> bool);
  GetResBody : option (Ctx -> list byte);
  SkipURIs : option (list string);
  Logger : option Zerolog.Logger;
  GetLogger : option (Ctx -> Zerolog.Logger);
  Fields : option (list string);
  Messages : option (list string);
  Levels : option (list Level)
}.

(** The elements a [for ... range] loop visits: none for a nil slice. *)
Definition elems {A : Type} (s : option (list A)) : list A :=
  match s with
  | Some l => l
  | None => []
  end.

(** [len(s)] of a slice. *)
Definition len {A : Type} (s : option (list A)) : nat := length (elems s).

(** [loggerCtx] (lines 103-109).  With neither [GetLogger] nor [Logger]
    set, [c.Logger.With()] dereferences a nil pointer: [None]. *)
Definition loggerCtx (c : Config) (fc : Ctx) : option Context :=
  match GetLogger c with
  | Some get => Some (With (get fc))
  | None =>
      match Logger c with
      | Some l => Some (With l)
      | None => None
      end
  end.

(** The callback handed to [Header.VisitAll] (lines 169-171), run over the
    headers in visiting order. *)
Definition visitAll (hs : list (list byte * list byte)) (zc : Context) : Context :=
  fold_left (fun acc kv => Bytes (string_of_list_byte (fst kv)) (snd kv) acc) hs zc.

(** One iteration of the loop body: the [switch field] of lines 115-172.
    [pid] is what [os.Getpid()] returns; [err] is [None] for a nil error. *)
Definition addField (pid : Z) (c : Config) (fc : Ctx) (latency : Z)
    (err : option GoError) (zc : Context) (field : string) : Context :=
  if field =? FieldReferer then Str FieldReferer (Get fc HeaderReferer) zc
  else if field =? FieldProtocol then Str FieldProtocol (Protocol fc) zc
  else if field =? FieldPID then Int FieldPID pid zc
  else if field =? FieldPort then Str FieldPort (Port fc) zc
  else if field =? FieldIP then Str FieldIP (IP fc) zc
  else if field =? FieldIPs then Str FieldIPs (Get fc HeaderXForwardedFor) zc
  else if field =? FieldHost then Str FieldHost (Hostname fc) zc
  else if field =? FieldPath then Str FieldPath (Path fc) zc
  else if field =? FieldURL then Str FieldURL (OriginalURL fc) zc
  else if field =? FieldUserAgent then
    Str FieldUserAgent (Get fc HeaderUserAgent) zc
  else if field =? FieldLatency then Dur FieldLatency latency zc
  else if field =? FieldStatus then Int FieldStatus (StatusCode fc) zc
  else if field =? FieldResBody then
    match SkipResBody c with
    | Some skip =>
        if negb (skip fc) then
          match GetResBody c with
          | None => Bytes FieldResBody (ResponseBody fc) zc
          | Some get => Bytes FieldResBody (get fc) zc
          end
        else zc
    | None =>
        match GetResBody c with
        | None => Bytes FieldResBody (ResponseBody fc) zc
        | Some get => Bytes FieldResBody (get fc) zc
        end
    end
  else if field =? FieldQueryParams then
    Stringer FieldQueryParams (QueryArgs fc) zc
  else if field =? FieldBody then
    match SkipBody c with
    | Some skip => if negb (skip fc) then Bytes FieldBody (Body fc) zc else zc
    | None => Bytes FieldBody (Body fc) zc
    end
  else if field =? FieldBytesReceived then
    Int FieldBytesReceived (Z.of_nat (length (RequestBody fc))) zc
  else if field =? FieldBytesSent then
    Int FieldBytesSent (Z.of_nat (length (ResponseBody fc))) zc
  else if field =? FieldRoute then Str FieldRoute (RoutePath fc) zc
  else if field =? FieldMethod then Str FieldMethod (Method fc) zc
  else if field =? FieldRequestID then
    Str FieldRequestID (GetRespHeader fc HeaderXRequestID) zc
  else if field =? FieldError then
    match err with
    | Some e => Err e zc
    | None => zc
    end
  else if field =? FieldReqHeaders then visitAll (ReqHeaders fc) zc
  else zc.

(** [logger] (lines 111-176): the loop over [c.Fields], then [zc.Logger()]. *)
Definition logger (pid : Z) (c : Config) (fc : Ctx) (latency : Z)
    (err : option GoError) : option Zerolog.Logger :=
  match loggerCtx c fc with
  | Some zc =>
      Some (ToLogger (fold_left (addField pid c fc latency err) (elems (Fields c)) zc))
  | None => None
  end.

(** The package-level [logger] (line 178): a fresh logger writing to
    stderr; its timestamp is a hook run at emission, not a context pair. *)
Definition defaultLogger : Zerolog.Logger := mkLogger [].

(** [ConfigDefault] (lines 181-187), at its initial value. *)
Definition ConfigDefault : Config :=
  {| Next := None;
     SkipBody := None;
     SkipResBody := None;
     GetResBody := None;
     SkipURIs := None;
     Logger := Some defaultLogger;
     GetLogger := None;
     Fields := Some [FieldLatency; FieldStatus; FieldMethod; FieldURL; FieldError];
     Messages := Some ["Server error"; "Client error"; "Success"];
     Levels := Some [ErrorLevel; WarnLevel; InfoLevel] |}.

(** [x == nil ? d : x] for a nilable option. *)
Definition orDefault {A : Type} (x d : option A) : option A :=
  match x with
  | None => d
  | Some _ => x
  end.

(** [configDefault] (lines 190-221).  The variadic argument is a list;
    [def] is the value the package variable [ConfigDefault] holds when the
    function runs. *)
Definition configDefault (def : Config) (config : list Config) : Config :=
  match config with
  | [] => def
  | cfg :: _ =>
      {| Next := orDefault (Next cfg) (Next def);
         SkipBody := SkipBody cfg;
         SkipResBody := SkipResBody cfg;
         GetResBody := GetResBody cfg;
         SkipURIs := SkipURIs cfg;
         Logger := orDefault (Logger cfg) (Logger def);
         GetLogger := GetLogger cfg;
         Fields := orDefault (Fields cfg) (Fields def);
         Messages := orDefault (Messages cfg) (Messages def);
         Levels := orDefault (Levels cfg) (Levels def) |}
  end.

(** ** Severity classification and emission *)

(** Modelled from the spec: the request handler built by the middleware
    constructor, which classifies the response status and emits the
    record, lives in the package's other source file and is missing here.
    Section 4.1: a status of 500 or more is tier 0, a status of 400 or more
    and below 500 is tier 1, anything else is tier 2. *)
Definition tierIndex (status : Z) : nat :=
  if (500 <=? status)%Z then 0
  else if (400 <=? status)%Z then 1
  else 2.

(** Modelled from the spec: the fallback rule of the missing handler,
    section 4.1: if the configured list has fewer entries than the tier
    index plus one, use the last available entry.  An empty list has no
    available entry. *)
Definition tierEntry {A : Type} (s : option (list A)) (index : nat) : option A :=
  if (len s <? index + 1)%nat then nth_error (elems s) (len s - 1)
  else nth_error (elems s) index.

(** Modelled from the spec: the severity and the message the missing
    handler emits the record with, section 4.1: the chosen level as
    severity and the chosen message as primary text. *)
Definition emitted (c : Config) (status : Z) : option (Level * string) :=
  match tierEntry (Levels c) (tierIndex status),
        tierEntry (Messages c) (tierIndex status) with
  | Some lvl, Some msg => Some (lvl, msg)
  | _, _ => None
  end.

(** ** Derived notions used in the statements *)

(** The keys [Header.VisitAll] contributes, in visiting order. *)
Definition headerKeys (fc : Ctx) : list string :=
  map (fun kv => string_of_list_byte (fst kv)) (ReqHeaders fc).

(** What one tag contributes to an empty context. *)
Definition contribution (pid : Z) (c : Config) (fc : Ctx) (latency : Z)
    (err : option GoError) (field : string) : Context :=
  addField pid c fc latency err [] field.

(** Whether a tag attaches anything for this request. *)
Definition attaches (pid : Z) (c : Config) (fc : Ctx) (latency : Z)
    (err : option GoError) (field : string) : bool :=
  match contribution pid c fc latency err field with
  | [] => false
  | _ :: _ => true
  end.

(** Key [k] can only come from its own tag: the logger's own context has
    no pair under [k], and no request header named [k] is expanded. *)
Definition keyOnlyFromTag (c : Config) (fc : Ctx) (base : Context) (k : string) : Prop :=
  ~ In k (keys base)
  /\ (In FieldReqHeaders (elems (Fields c)) -> ~ In k (headerKeys fc)).

(** A skip predicate is absent or answers false for this request. *)
Definition notSkipped (p : option (Ctx -> bool)) (fc : Ctx) : Prop :=
  p = None \/ exists skip, p = Some skip /\ skip fc = false.

(** [c] with its field list replaced. *)
Definition withFields (c : Config) (fields : list string) : Config :=
  {| Next := Next c;
     SkipBody := SkipBody c;
     SkipResBody := SkipResBody c;
     GetResBody := GetResBody c;
     SkipURIs := SkipURIs c;
     Logger := Logger c;
     GetLogger := GetLogger c;
     Fields := Some fields;
     Messages := Messages c;
     Levels := Levels c |}.

(** The tag names as the specification spells them. *)
Definition SpecFieldTags : list string :=
  [ "referer"; "protocol"; "pid"; "port"; "ip"; "ips"; "host"; "path";
    "url"; "user-agent"; "latency"; "status"; "response-body";
    "query-params"; "body"; "bytes-received"; "bytes-sent"; "route";
    "method"; "request-id"; "error"; "request-headers" ].

(** A tag is recognized when some configuration, request and context
    exist for which the loop body changes the context. *)
Definition recognized (field : string) : Prop :=
  exists pid c fc latency err zc, addField pid c fc latency err zc field <> zc.

(** [c] with its static logger replaced. *)
Definition withLogger (c : Config) (l : option Zerolog.Logger) : Config :=
  {| Next := Next c;
     SkipBody := SkipBody c;
     SkipResBody := SkipResBody c;
     GetResBody := GetResBody c;
     SkipURIs := SkipURIs c;
     Logger := l;
     GetLogger := GetLogger c;
     Fields := Fields c;
     Messages := Messages c;
     Levels := Levels c |}.

(** The tags whose case attaches a pair without any guard and reads an
    accessor that returns for every request: every tag but resBody, body,
    error, reqHeaders and port.  The port tag is left out because its
    accessor [fc.Port()] panics on a connection that is not TCP. *)
Definition UnguardedTags : list string :=
  [ FieldReferer; FieldProtocol; FieldPID; FieldIP; FieldIPs;
    FieldHost; FieldPath; FieldURL; FieldUserAgent; FieldLatency;
    FieldStatus; FieldQueryParams; FieldBytesReceived; FieldBytesSent;
    FieldRoute; FieldMethod; FieldRequestID ].

(** The pairs [Header.VisitAll] contributes, in visiting order. *)
Definition headerPairs (fc : Ctx) : Context :=
  map (fun kv => (string_of_list_byte (fst kv), VBytes (snd kv))) (ReqHeaders fc).

(** ** A concrete request, for evaluating the definitions *)
Module Sample.

Definition bytes (s : string) : list byte := list_byte_of_string s.

Definition ctx : Ctx :=
  {| Get := fun k => if k =? HeaderUserAgent then "curl/8.0" else "";
     GetRespHeader := fun k => if k =? HeaderXRequestID then "req-1" else "";
     Protocol := "http";
     Port := "8080";
     IP := "10.0.0.1";
     Hostname := "example.org";
     Path := "/items/7";
     OriginalURL := "/items/7?full=1";
     Method := "GET";
     RoutePath := "/items/:id";
     StatusCode := 404;
     ResponseBody := bytes "not found";
     RequestBody := bytes "ping";
     Body := bytes "ping";
     QueryArgs := "full=1";
     ReqHeaders := [(bytes "Accept", bytes "*/*"); (bytes "Host", bytes "example.org")] |}.

(** The default configuration with every tag of the const block listed. *)
Definition allFields : Config := withFields ConfigDefault FieldTags.

Definition skipAll : Config :=
  {| Next := None;
     SkipBody := Some (fun _ => true);
     SkipResBody := Some (fun _ => true);
     GetResBody := Some (fun _ => bytes "plain");
     SkipURIs := None;
     Logger := Some defaultLogger;
     GetLogger := None;
     Fields := Some [FieldStatus; FieldBody; FieldResBody; FieldError];
     Messages := Some ["only"];
     Levels := Some [InfoLevel] |}.

Definition override : Config :=
  {| Next := None;
     SkipBody := Some (fun _ => false);
     SkipResBody := Some (fun _ => false);
     GetResBody := Some (fun _ => bytes "plain");
     SkipURIs := None;
     Logger := Some defaultLogger;
     GetLogger := None;
     Fields := Some [FieldStatus; FieldBody; FieldResBody; FieldError];
     Messages := Some ["bad"; "good"];
     Levels := Some [ErrorLevel; InfoLevel] |}.

Definition emptyLists : Config :=
  {| Next := None;
     SkipBody := None;
     SkipResBody := None;
     GetResBody := None;
     SkipURIs := None;
     Logger := None;
     GetLogger := None;
     Fields := None;
     Messages := Some [];
     Levels := Some [] |}.

(** A configuration with a per-request logger and no static one. *)
Definition perRequest : Config :=
  {| Next := None;
     SkipBody := None;
     SkipResBody := Some (fun _ => true);
     GetResBody := Some (fun _ => bytes "plain");
     SkipURIs := None;
     Logger := None;
     GetLogger := Some (fun fc => mkLogger [("trace", VStr (Path fc))]);
     Fields := Some [FieldStatus; FieldReqHeaders; FieldBytesSent; FieldStatus];
     Messages := None;
     Levels := None |}.

End Sample.

(** The model evaluated on the sample request. *)
Example sample_default_record :
  option_map context (logger 42 ConfigDefault Sample.ctx 1500 (Some (PlainError "boom")))
  = Some [ ("latency", VDur 1500); ("status", VInt 404); ("method", VStr "GET");
           ("url", VStr "/items/7?full=1"); ("error", VStr "boom") ].
Proof. reflexivity. Qed.

Example sample_default_record_no_error :
  option_map (fun l => keys (context l)) (logger 42 ConfigDefault Sample.ctx 1500 None)
  = Some [ "latency"; "status"; "method"; "url" ].
Proof. reflexivity. Qed.

Example sample_all_fields_keys :
  option_map (fun l => keys (context l)) (logger 42 Sample.allFields Sample.ctx 1500 (Some (PlainError "boom")))
  = Some [ "referer"; "protocol"; "pid"; "port"; "ip"; "ips"; "host"; "path";
           "url"; "ua"; "latency"; "status"; "resBody"; "queryParams"; "body";
           "bytesReceived"; "bytesSent"; "route"; "method"; "requestId";
           "error"; "Accept"; "Host" ].
Proof. reflexivity. Qed.

Example sample_error_kinds :
  option_map (fun l => keys (context l))
             (logger 42 ConfigDefault Sample.ctx 1500 (Some NilValueError))
  = Some [ "latency"; "status"; "method"; "url" ]
  /\ option_map context
       (logger 42 (withFields ConfigDefault ["error"]) Sample.ctx 1500
               (Some (MarshalerError "{code:7}")))
     = Some [ ("error", VObject "{code:7}") ].
Proof. split; reflexivity. Qed.

Example sample_skip_all :
  option_map context (logger 42 Sample.skipAll Sample.ctx 1500 None)
  = Some [ ("status", VInt 404) ].
Proof. reflexivity. Qed.

Example sample_emitted :
  emitted ConfigDefault 503 = Some (ErrorLevel, "Server error")
  /\ emitted Sample.override 200 = Some (InfoLevel, "good")
  /\ emitted Sample.emptyLists 200 = None.
Proof. repeat split; reflexivity. Qed.

(** ** Facts about the loop body *)

(** Walks down the [switch]: one goal per case, and a last one for a tag
    that matches no case. *)
Ltac switch_cases :=
  repeat match goal with
         | |- context [String.eqb ?a ?b] =>
             destruct (String.eqb_spec a b) as [? | ?]; [subst; cbv iota | cbv iota]
         end.

Ltac unfold_adders := unfold Err, AnErr, Object, Str, Int, Dur, Bytes, Stringer.

Ltac split_guards :=
  repeat match goal with
         | |- context [match ?x with _ => _ end] => destruct x
         end.

Lemma visitAll_append (hs : list (list byte * list byte)) (zc : Context) :
  visitAll hs zc
  = zc ++ map (fun kv => (string_of_list_byte (fst kv), VBytes (snd kv))) hs.
Proof.
  unfold visitAll. revert zc.
  induction hs as [| kv hs IH]; intros zc; simpl.
  - now rewrite app_nil_r.
  - rewrite IH. unfold Bytes. now rewrite <- app_assoc.
Qed.

Section LoopBody.

Variables (pid : Z) (c : Config) (fc : Ctx) (latency : Z) (err : option GoError).

Local Abbreviation step := (addField pid c fc latency err).
Local Abbreviation contrib := (contribution pid c fc latency err).

(** The loop body only ever appends. *)
Lemma addField_append (zc : Context) (field : string) :
  step zc field = zc ++ contrib field.
Proof.
  unfold contribution, addField. switch_cases;
    try rewrite (visitAll_append _ zc); try rewrite (visitAll_append _ []);
    unfold_adders; split_guards; simpl; rewrite ?app_nil_r; reflexivity.
Qed.

Lemma fold_addField (fields : list string) (zc : Context) :
  fold_left step fields zc = zc ++ flat_map contrib fields.
Proof.
  revert zc. induction fields as [| f fields IH]; intros zc; simpl.
  - now rewrite app_nil_r.
  - rewrite IH, addField_append. now rewrite <- app_assoc.
Qed.

(** A tag outside the const block falls through the [switch]. *)
Lemma addField_unrecognized (zc : Context) (field : string) :
  ~ In field FieldTags -> step zc field = zc.
Proof.
  intros Hout. unfold addField.
  switch_cases; try reflexivity; exfalso; apply Hout; unfold FieldTags; simpl; tauto.
Qed.

Lemma contribution_unrecognized (field : string) :
  ~ In field FieldTags -> contrib field = [].
Proof. intros H. unfold contribution. now apply addField_unrecognized. Qed.

(** Every tag but the request-headers tag contributes nothing or one pair
    keyed by the tag itself. *)
Lemma contribution_single (field : string) :
  field <> FieldReqHeaders ->
  contrib field = [] \/ exists v, contrib field = [(field, v)].
Proof.
  intros Hne. unfold contribution, addField.
  switch_cases; try congruence; unfold_adders; split_guards; simpl;
    solve [ now left | right; eexists; reflexivity ].
Qed.

Lemma contribution_headers :
  contrib FieldReqHeaders
  = map (fun kv => (string_of_list_byte (fst kv), VBytes (snd kv))) (ReqHeaders fc).
Proof. unfold contribution. cbn. now rewrite visitAll_append. Qed.

Lemma keys_contribution (field : string) :
  keys (contrib field)
  = if field =? FieldReqHeaders then headerKeys fc
    else if attaches pid c fc latency err field then [field] else [].
Proof.
  destruct (String.eqb_spec field FieldReqHeaders) as [-> | Hne].
  - rewrite contribution_headers. unfold keys, headerKeys.
    rewrite map_map. reflexivity.
  - unfold attaches.
    destruct (contribution_single field Hne) as [-> | [v ->]]; reflexivity.
Qed.

Lemma keys_app (a b : Context) : keys (a ++ b) = keys a ++ keys b.
Proof. unfold keys. apply map_app. Qed.

Lemma keys_flat_map (fields : list string) :
  keys (flat_map contrib fields)
  = flat_map (fun f => keys (contrib f)) fields.
Proof.
  induction fields as [| f fields IH]; simpl; [reflexivity |].
  now rewrite keys_app, IH.
Qed.

(** The record [logger] returns: the logger's own pairs, then each
    tag's contribution in list order. *)
Lemma logger_record (base : Context) :
  loggerCtx c fc = Some base ->
  logger pid c fc latency err
  = Some (ToLogger (base ++ flat_map contrib (elems (Fields c)))).
Proof.
  intros Hbase. unfold logger. rewrite Hbase. now rewrite fold_addField.
Qed.

End LoopBody.

Section Record.

Variables (pid : Z) (c : Config) (fc : Ctx) (latency : Z) (err : option GoError).

Local Abbreviation contrib := (contribution pid c fc latency err).

Lemma contribution_body :
  contrib FieldBody
  = match SkipBody c with
    | Some skip => if skip fc then [] else [(FieldBody, VBytes (Body fc))]
    | None => [(FieldBody, VBytes (Body fc))]
    end.
Proof.
  unfold contribution. cbn. destruct (SkipBody c) as [skip |]; [| reflexivity].
  destruct (skip fc); reflexivity.
Qed.

Lemma contribution_resBody :
  contrib FieldResBody
  = let body := match GetResBody c with
                | None => ResponseBody fc
                | Some get => get fc
                end in
    match SkipResBody c with
    | Some skip => if skip fc then [] else [(FieldResBody, VBytes body)]
    | None => [(FieldResBody, VBytes body)]
    end.
Proof.
  unfold contribution. cbn.
  destruct (SkipResBody c) as [skip |]; [destruct (skip fc) |];
    destruct (GetResBody c); reflexivity.
Qed.

Lemma contribution_error :
  contrib FieldError
  = match err with
    | Some (MarshalerError obj) => [(FieldError, VObject obj)]
    | Some (PlainError msg) => [(FieldError, VStr msg)]
    | Some NilValueError | None => []
    end.
Proof. unfold contribution. cbn. destruct err as [[obj | | msg] |]; reflexivity. Qed.

(** Where a pair of a contribution can come from. *)
Lemma key_from_tag (k : string) (v : Value) (field : string) :
  In (k, v) (contrib field) ->
  field = k \/ (field = FieldReqHeaders /\ In k (headerKeys fc)).
Proof.
  intros Hin.
  destruct (string_dec field FieldReqHeaders) as [-> | Hne].
  - right. split; [reflexivity |].
    rewrite contribution_headers in Hin. unfold headerKeys.
    apply in_map_iff in Hin. destruct Hin as [kv [Heq Hkv]].
    apply in_map_iff. exists kv. split; [congruence | exact Hkv].
  - left. destruct (contribution_single pid c fc latency err field Hne) as [E | [w E]];
      rewrite E in Hin; simpl in Hin; [contradiction |].
    destruct Hin as [Heq | []]. congruence.
Qed.

(** Under [keyOnlyFromTag], a pair keyed [k] in the record was put
    there by tag [k]. *)
Lemma record_pair_origin (base : Context) (k : string) (v : Value) :
  keyOnlyFromTag c fc base k ->
  In (k, v) (base ++ flat_map contrib (elems (Fields c))) ->
  In k (elems (Fields c)) /\ In (k, v) (contrib k).
Proof.
  intros [Hbase Hhdr] Hin. apply in_app_or in Hin. destruct Hin as [Hin | Hin].
  - exfalso. apply Hbase. unfold keys. apply in_map_iff. now exists (k, v).
  - apply in_flat_map in Hin. destruct Hin as [f [Hf Hin]].
    destruct (key_from_tag _ _ _ Hin) as [-> | [-> Hk]]; [now split |].
    exfalso. now apply Hhdr.
Qed.

Lemma record_key_origin (base : Context) (k : string) :
  keyOnlyFromTag c fc base k ->
  In k (keys (base ++ flat_map contrib (elems (Fields c)))) ->
  exists v, In k (elems (Fields c)) /\ In (k, v) (contrib k).
Proof.
  intros Honly Hin. unfold keys in Hin. apply in_map_iff in Hin.
  destruct Hin as [[k' v] [Heq Hin]]. simpl in Heq. subst k'.
  exists v. now apply record_pair_origin with (base := base).
Qed.

(** A listed tag's contribution is part of the record. *)
Lemma record_contains (base : Context) (field : string) (kv : string * Value) :
  In field (elems (Fields c)) ->
  In kv (contrib field) ->
  In kv (base ++ flat_map contrib (elems (Fields c))).
Proof.
  intros Hf Hkv. apply in_or_app. right. apply in_flat_map. now exists field.
Qed.

End Record.

Lemma flat_map_singleton_filter {A : Type} (p : A -> bool) (l : list A) :
  flat_map (fun x => if p x then [x] else []) l = filter p l.
Proof.
  induction l as [| x l IH]; simpl; [reflexivity |].
  destruct (p x); simpl; now rewrite IH.
Qed.

Lemma flat_map_without_headers (hk : list string) (p : string -> bool)
    (fields : list string) :
  ~ In FieldReqHeaders fields ->
  flat_map (fun f => if f =? FieldReqHeaders then hk
                     else if p f then [f] else []) fields
  = filter p fields.
Proof.
  intros Hno. rewrite <- flat_map_singleton_filter.
  induction fields as [| f fs IH]; simpl; [reflexivity |].
  destruct (String.eqb_spec f FieldReqHeaders) as [-> | _].
  - exfalso. apply Hno. now left.
  - f_equal. apply IH. intros Hin. apply Hno. now right.
Qed.

Lemma filter_all {A : Type} (p : A -> bool) (l : list A) :
  forallb p l = true -> filter p l = l.
Proof.
  induction l as [| x l IH]; simpl; [reflexivity |].
  intros H. apply andb_true_iff in H. destruct H as [Hx Hl].
  rewrite Hx. now rewrite IH.
Qed.

Lemma tierIndex_cases (s : Z) :
  ((500 <= s)%Z /\ tierIndex s = 0)
  \/ ((400 <= s < 500)%Z /\ tierIndex s = 1)
  \/ ((s < 400)%Z /\ tierIndex s = 2).
Proof.
  unfold tierIndex.
  destruct (Z.leb_spec 500 s); [left; split; [lia | reflexivity] |].
  destruct (Z.leb_spec 400 s); [right; left | right; right]; split; (lia || reflexivity).
Qed.

Lemma tierEntry_min {A : Type} (s : option (list A)) (index : nat) :
  tierEntry s index = nth_error (elems s) (Nat.min index (len s - 1)).
Proof.
  unfold tierEntry. destruct (Nat.ltb_spec (len s) (index + 1)).
  - f_equal. lia.
  - f_equal. lia.
Qed.

(** ** Severity tiers *)

(** C1: the record's message and level are chosen by the tier of the final
    status code [s]: entry 0 of each list when [s >= 500]; entry 1, or the
    last entry of a shorter list, when [400 <= s < 500]; entry 2, or the
    last entry of a shorter list, otherwise.  Under the default
    configuration the three tiers emit "Server error" at error level,
    "Client error" at warn level and "Success" at info level; so do the
    statuses 503, 404 and 200. *)
Theorem emitted_by_tier (c : Config) (s : Z) :
  ((500 <= s)%Z ->
     tierEntry (Messages c) (tierIndex s) = nth_error (elems (Messages c)) 0
     /\ tierEntry (Levels c) (tierIndex s) = nth_error (elems (Levels c)) 0)
  /\ ((400 <= s < 500)%Z ->
     tierEntry (Messages c) (tierIndex s)
       = nth_error (elems (Messages c)) (Nat.min 1 (len (Messages c) - 1))
     /\ tierEntry (Levels c) (tierIndex s)
       = nth_error (elems (Levels c)) (Nat.min 1 (len (Levels c) - 1)))
  /\ ((s < 400)%Z ->
     tierEntry (Messages c) (tierIndex s)
       = nth_error (elems (Messages c)) (Nat.min 2 (len (Messages c) - 1))
     /\ tierEntry (Levels c) (tierIndex s)
       = nth_error (elems (Levels c)) (Nat.min 2 (len (Levels c) - 1)))
  /\ (forall lvl msg,
        tierEntry (Levels c) (tierIndex s) = Some lvl ->
        tierEntry (Messages c) (tierIndex s) = Some msg ->
        emitted c s = Some (lvl, msg))
  /\ ((500 <= s)%Z -> emitted ConfigDefault s = Some (ErrorLevel, "Server error"))
  /\ ((400 <= s < 500)%Z -> emitted ConfigDefault s = Some (WarnLevel, "Client error"))
  /\ ((s < 400)%Z -> emitted ConfigDefault s = Some (InfoLevel, "Success"))
  /\ emitted ConfigDefault 503 = Some (ErrorLevel, "Server error")
  /\ emitted ConfigDefault 404 = Some (WarnLevel, "Client error")
  /\ emitted ConfigDefault 200 = Some (InfoLevel, "Success").
Proof.
  assert (Hdef : forall i, tierIndex s = i ->
            emitted ConfigDefault s
            = match nth_error [ErrorLevel; WarnLevel; InfoLevel] (Nat.min i 2),
                    nth_error ["Server error"; "Client error"; "Success"] (Nat.min i 2) with
              | Some l, Some m => Some (l, m)
              | _, _ => None
              end).
  { intros i Hi. unfold emitted. rewrite !tierEntry_min, Hi. reflexivity. }
  repeat split; try reflexivity.
  - rewrite tierEntry_min. destruct (tierIndex_cases s) as [[_ E] | [[? _] | [? _]]];
      [now rewrite E | lia | lia].
  - rewrite tierEntry_min. destruct (tierIndex_cases s) as [[_ E] | [[? _] | [? _]]];
      [now rewrite E | lia | lia].
  - rewrite tierEntry_min. destruct (tierIndex_cases s) as [[? _] | [[_ E] | [? _]]];
      [lia | now rewrite E | lia].
  - rewrite tierEntry_min. destruct (tierIndex_cases s) as [[? _] | [[_ E] | [? _]]];
      [lia | now rewrite E | lia].
  - rewrite tierEntry_min. destruct (tierIndex_cases s) as [[? _] | [[? _] | [_ E]]];
      [lia | lia | now rewrite E].
  - rewrite tierEntry_min. destruct (tierIndex_cases s) as [[? _] | [[? _] | [_ E]]];
      [lia | lia | now rewrite E].
  - intros lvl msg Hl Hm. unfold emitted. now rewrite Hl, Hm.
  - intros Hs. destruct (tierIndex_cases s) as [[_ E] | [[? _] | [? _]]]; try lia.
    now rewrite (Hdef _ E).
  - intros Hs. destruct (tierIndex_cases s) as [[? _] | [[_ E] | [? _]]]; try lia.
    now rewrite (Hdef _ E).
  - intros Hs. destruct (tierIndex_cases s) as [[? _] | [[? _] | [_ E]]]; try lia.
    now rewrite (Hdef _ E).
Qed.

Lemma emitted_by_tier_witness :
  (500 <= 503)%Z
  /\ tierEntry (Messages ConfigDefault) (tierIndex 503) = Some "Server error"
  /\ tierEntry (Levels ConfigDefault) (tierIndex 503) = Some ErrorLevel
  /\ emitted ConfigDefault 503 = Some (ErrorLevel, "Server error").
Proof.
  destruct (emitted_by_tier ConfigDefault 503) as [H0 [_ [_ [Hpair [Hd _]]]]].
  assert (Hs : (500 <= 503)%Z) by lia.
  destruct (H0 Hs) as [Hm Hl].
  split; [exact Hs |]. split; [exact Hm |]. split; [exact Hl |].
  apply Hpair; [exact Hl | exact Hm].
Defined.

(** C2: a list with fewer than three entries reuses its last entry for the
    tiers it lacks.  A single-entry list yields its one message or level
    for every status code; a two-entry list yields entry 1 for the success
    tier. *)
Theorem short_list_fallback (c : Config) (s : Z) :
  (forall m, Messages c = Some [m] -> tierEntry (Messages c) (tierIndex s) = Some m)
  /\ (forall l, Levels c = Some [l] -> tierEntry (Levels c) (tierIndex s) = Some l)
  /\ (forall m l, Messages c = Some [m] -> Levels c = Some [l] ->
        emitted c s = Some (l, m))
  /\ (forall m0 m1, Messages c = Some [m0; m1] -> (s < 400)%Z ->
        tierEntry (Messages c) (tierIndex s) = Some m1)
  /\ (forall l0 l1, Levels c = Some [l0; l1] -> (s < 400)%Z ->
        tierEntry (Levels c) (tierIndex s) = Some l1)
  /\ (forall m0 m1 l0 l1, Messages c = Some [m0; m1] -> Levels c = Some [l0; l1] ->
        (s < 400)%Z -> emitted c s = Some (l1, m1)).
Proof.
  assert (Hone : forall (A : Type) (x : A) i, tierEntry (Some [x]) i = Some x).
  { intros A x i. rewrite tierEntry_min. unfold len. simpl.
    now rewrite Nat.min_0_r. }
  assert (Htwo : forall (A : Type) (x y : A),
             (s < 400)%Z -> tierEntry (Some [x; y]) (tierIndex s) = Some y).
  { intros A x y Hs. rewrite tierEntry_min.
    destruct (tierIndex_cases s) as [[? _] | [[? _] | [_ E]]]; try lia.
    now rewrite E. }
  repeat split.
  - intros m ->. apply Hone.
  - intros l ->. apply Hone.
  - intros m l Hm Hl. unfold emitted. rewrite Hm, Hl. now rewrite !Hone.
  - intros m0 m1 -> Hs. now apply Htwo.
  - intros l0 l1 -> Hs. now apply Htwo.
  - intros m0 m1 l0 l1 Hm Hl Hs. unfold emitted. rewrite Hm, Hl.
    now rewrite !Htwo.
Qed.

Lemma short_list_fallback_witness :
  emitted Sample.skipAll 503 = Some (InfoLevel, "only")
  /\ tierEntry (Messages Sample.override) (tierIndex 200) = Some "good"
  /\ emitted Sample.override 200 = Some (InfoLevel, "good").
Proof.
  split; [| split].
  - destruct (short_list_fallback Sample.skipAll 503) as [_ [_ [H _]]].
    apply H; reflexivity.
  - destruct (short_list_fallback Sample.override 200) as [_ [_ [_ [H _]]]].
    apply (H "bad"); [reflexivity | lia].
  - destruct (short_list_fallback Sample.override 200) as [_ [_ [_ [_ [_ H]]]]].
    apply (H "bad" "good" ErrorLevel InfoLevel); [reflexivity | reflexivity | lia].
Defined.

(** ** Configuration resolution *)

(** C3, as stated, fails: a supplied configuration whose Messages and
    Levels are empty but not nil keeps both lists empty after
    resolution. *)
Lemma empty_lists_counterexample :
  ~ (forall cfg : Config,
        Messages cfg = Some [] \/ Levels cfg = Some [] ->
        elems (Messages (configDefault ConfigDefault [cfg])) <> []
        /\ elems (Levels (configDefault ConfigDefault [cfg])) <> []).
Proof.
  intros H.
  destruct (H Sample.emptyLists (or_introl eq_refl)) as [Hm _].
  apply Hm. reflexivity.
Qed.

(** C3, amended: resolution substitutes the default Messages and Levels
    only for a nil list; a list that is present, empty or not, passes
    through unchanged.  The resolved list is therefore non-empty exactly
    when the supplied one is not the empty non-nil list. *)
Theorem configDefault_lists (cfg : Config) (rest : list Config) :
  (Messages cfg = None ->
     Messages (configDefault ConfigDefault (cfg :: rest)) = Messages ConfigDefault)
  /\ (Levels cfg = None ->
     Levels (configDefault ConfigDefault (cfg :: rest)) = Levels ConfigDefault)
  /\ (forall l, Messages cfg = Some l ->
     Messages (configDefault ConfigDefault (cfg :: rest)) = Some l)
  /\ (forall l, Levels cfg = Some l ->
     Levels (configDefault ConfigDefault (cfg :: rest)) = Some l)
  /\ (elems (Messages (configDefault ConfigDefault (cfg :: rest))) <> []
      <-> Messages cfg <> Some [])
  /\ (elems (Levels (configDefault ConfigDefault (cfg :: rest))) <> []
      <-> Levels cfg <> Some []).
Proof.
  simpl. repeat split.
  - now intros ->.
  - now intros ->.
  - now intros l ->.
  - now intros l ->.
  - destruct (Messages cfg) as [[| m l] |]; simpl; congruence.
  - destruct (Messages cfg) as [[| m l] |]; simpl; congruence.
  - destruct (Levels cfg) as [[| m l] |]; simpl; congruence.
  - destruct (Levels cfg) as [[| m l] |]; simpl; congruence.
Qed.

Lemma configDefault_lists_witness :
  Messages (configDefault ConfigDefault [Sample.emptyLists]) = Some []
  /\ elems (Levels (configDefault ConfigDefault [Sample.override])) <> [].
Proof.
  split.
  - destruct (configDefault_lists Sample.emptyLists []) as [_ [_ [H _]]].
    apply H. reflexivity.
  - destruct (configDefault_lists Sample.override []) as [_ [_ [_ [_ [_ [_ H]]]]]].
    apply H. discriminate.
Defined.

(** C10: [configDefault] is a function of the supplied configuration and
    of the value [def] of [ConfigDefault].  With no argument it returns
    [def].  Otherwise each of Next, Logger, Fields, Messages and Levels
    takes [def]'s value exactly when the supplied one is nil and is kept
    when it is not; SkipBody, SkipResBody, GetResBody, SkipURIs and
    GetLogger are always kept. *)
Theorem configDefault_frame (def cfg : Config) (rest : list Config) :
  configDefault def [] = def
  /\ configDefault ConfigDefault [] = ConfigDefault
  /\ (Next cfg = None -> Next (configDefault def (cfg :: rest)) = Next def)
  /\ (Next cfg <> None -> Next (configDefault def (cfg :: rest)) = Next cfg)
  /\ (Logger cfg = None -> Logger (configDefault def (cfg :: rest)) = Logger def)
  /\ (Logger cfg <> None -> Logger (configDefault def (cfg :: rest)) = Logger cfg)
  /\ (Fields cfg = None -> Fields (configDefault def (cfg :: rest)) = Fields def)
  /\ (Fields cfg <> None -> Fields (configDefault def (cfg :: rest)) = Fields cfg)
  /\ (Messages cfg = None -> Messages (configDefault def (cfg :: rest)) = Messages def)
  /\ (Messages cfg <> None -> Messages (configDefault def (cfg :: rest)) = Messages cfg)
  /\ (Levels cfg = None -> Levels (configDefault def (cfg :: rest)) = Levels def)
  /\ (Levels cfg <> None -> Levels (configDefault def (cfg :: rest)) = Levels cfg)
  /\ SkipBody (configDefault def (cfg :: rest)) = SkipBody cfg
  /\ SkipResBody (configDefault def (cfg :: rest)) = SkipResBody cfg
  /\ GetResBody (configDefault def (cfg :: rest)) = GetResBody cfg
  /\ SkipURIs (configDefault def (cfg :: rest)) = SkipURIs cfg
  /\ GetLogger (configDefault def (cfg :: rest)) = GetLogger cfg.
Proof.
  simpl. repeat split; try (intros H; rewrite H; reflexivity).
  - intros H. destruct (Next cfg); [reflexivity | congruence].
  - intros H. destruct (Logger cfg); [reflexivity | congruence].
  - intros H. destruct (Fields cfg); [reflexivity | congruence].
  - intros H. destruct (Messages cfg); [reflexivity | congruence].
  - intros H. destruct (Levels cfg); [reflexivity | congruence].
Qed.

Lemma configDefault_frame_witness :
  Logger (configDefault ConfigDefault [Sample.emptyLists]) = Some defaultLogger
  /\ Fields (configDefault ConfigDefault [Sample.emptyLists]) = Fields ConfigDefault
  /\ Messages (configDefault ConfigDefault [Sample.emptyLists]) = Some []
  /\ Fields (configDefault ConfigDefault [Sample.override])
     = Some [FieldStatus; FieldBody; FieldResBody; FieldError].
Proof.
  pose proof (configDefault_frame ConfigDefault Sample.emptyLists []) as H.
  pose proof (configDefault_frame ConfigDefault Sample.override []) as H'.
  destruct H as [_ [_ [_ [_ [Hlog [_ [Hf [_ [_ [Hm _]]]]]]]]]].
  destruct H' as [_ [_ [_ [_ [_ [_ [_ [Hf' _]]]]]]]].
  split; [apply Hlog; reflexivity |].
  split; [apply Hf; reflexivity |].
  split; [apply Hm; discriminate |].
  apply Hf'. discriminate.
Defined.

(** ** The record builder *)

(** C4: [logger] processes the tags in the configured order.  The keys of
    the record are the keys of the logger's own context followed, tag by
    tag in list order, by the tag itself when it attaches something and by
    one key per request header for the request-headers tag.  For a list
    without the request-headers tag the added keys are the configured list
    with the tags that attach nothing left out, and the configured list
    itself when every tag attaches. *)
Theorem logger_key_order (pid : Z) (c : Config) (fc : Ctx) (latency : Z)
    (err : option GoError) (base : Context) :
  loggerCtx c fc = Some base ->
  exists l,
    logger pid c fc latency err = Some l
    /\ keys (context l)
       = keys base
         ++ flat_map (fun f => if f =? FieldReqHeaders then headerKeys fc
                               else if attaches pid c fc latency err f then [f]
                               else [])
                     (elems (Fields c))
    /\ (~ In FieldReqHeaders (elems (Fields c)) ->
        keys (context l)
        = keys base ++ filter (attaches pid c fc latency err) (elems (Fields c)))
    /\ (~ In FieldReqHeaders (elems (Fields c)) ->
        forallb (attaches pid c fc latency err) (elems (Fields c)) = true ->
        keys (context l) = keys base ++ elems (Fields c)).
Proof.
  intros Hbase. eexists.
  split; [apply logger_record with (base := base); exact Hbase |].
  simpl.
  assert (Hkeys : keys (base ++ flat_map (contribution pid c fc latency err) (elems (Fields c)))
                  = keys base
                    ++ flat_map (fun f => if f =? FieldReqHeaders then headerKeys fc
                                          else if attaches pid c fc latency err f then [f]
                                          else [])
                                (elems (Fields c))).
  { rewrite keys_app, keys_flat_map. f_equal.
    apply flat_map_ext. intros f. apply keys_contribution. }
  assert (Hfilter : ~ In FieldReqHeaders (elems (Fields c)) ->
                    keys (base ++ flat_map (contribution pid c fc latency err) (elems (Fields c)))
                    = keys base ++ filter (attaches pid c fc latency err) (elems (Fields c))).
  { intros Hno. rewrite Hkeys. f_equal. now apply flat_map_without_headers. }
  split; [exact Hkeys |]. split; [exact Hfilter |].
  intros Hno Hall. rewrite (Hfilter Hno). now rewrite filter_all.
Qed.

Lemma logger_key_order_witness :
  exists l,
    logger 42 ConfigDefault Sample.ctx 1500 None = Some l
    /\ keys (context l) = ["latency"; "status"; "method"; "url"].
Proof.
  destruct (logger_key_order 42 ConfigDefault Sample.ctx 1500 None [] eq_refl)
    as [l [Hl [_ [Hfilter _]]]].
  exists l. split; [exact Hl |].
  rewrite Hfilter.
  - reflexivity.
  - simpl. intros [H | [H | [H | [H | [H | []]]]]]; discriminate H.
Defined.

(** C5: a tag outside the recognized set is silently ignored.  The record
    built from a list containing such a tag equals the record built from
    the list with the tag removed, and the tag cannot make [logger] fail:
    whenever a logger can be obtained, a record is returned. *)
Theorem unrecognized_tag_ignored (pid : Z) (c : Config) (fc : Ctx) (latency : Z)
    (err : option GoError) (before after : list string) (tag : string) :
  ~ In tag FieldTags ->
  logger pid (withFields c (before ++ tag :: after)) fc latency err
  = logger pid (withFields c (before ++ after)) fc latency err
  /\ (forall base, loggerCtx c fc = Some base ->
      exists l, logger pid (withFields c (before ++ tag :: after)) fc latency err = Some l).
Proof.
  intros Hout. split.
  - unfold logger, loggerCtx. simpl.
    destruct (GetLogger c) as [get |]; [| destruct (Logger c) as [l |]; [| reflexivity]].
    + do 2 f_equal. rewrite !fold_left_app. simpl.
      now rewrite addField_unrecognized.
    + do 2 f_equal. rewrite !fold_left_app. simpl.
      now rewrite addField_unrecognized.
  - intros base Hbase. eexists.
    apply logger_record with (base := base). exact Hbase.
Qed.

Lemma unrecognized_tag_ignored_witness :
  logger 42 (withFields ConfigDefault ["status"; "user-agent"; "method"]) Sample.ctx 1500 None
  = logger 42 (withFields ConfigDefault ["status"; "method"]) Sample.ctx 1500 None.
Proof.
  apply (unrecognized_tag_ignored 42 ConfigDefault Sample.ctx 1500 None
           ["status"] ["method"] "user-agent").
  unfold FieldTags. simpl.
  intros H. repeat (destruct H as [H | H]; [discriminate H |]). exact H.
Defined.

(** C6, as stated, fails: "user-agent" is one of the tag names the
    specification lists, yet no case of the [switch] matches it, so it
    attaches nothing; the same holds for the other six hyphenated names. *)
Lemma spec_tag_names_counterexample :
  In "user-agent" SpecFieldTags
  /\ ~ recognized "user-agent"
  /\ logger 42 (withFields ConfigDefault
                  [ "user-agent"; "response-body"; "query-params";
                    "bytes-received"; "bytes-sent"; "request-id";
                    "request-headers" ])
            Sample.ctx 1500 (Some (PlainError "boom"))
     = Some defaultLogger.
Proof.
  split; [| split].
  - unfold SpecFieldTags. simpl. tauto.
  - intros (pid & c & fc & latency & err & zc & Hne). apply Hne. reflexivity.
  - reflexivity.
Qed.

(** C6, amended: the recognized tags are exactly the strings of the const
    block: referer, protocol, pid, port, ip, ips, host, path, url, ua,
    latency, status, resBody, queryParams, body, bytesReceived, bytesSent,
    route, method, requestId, error, reqHeaders. *)
Theorem recognized_tags (field : string) :
  recognized field
  <-> In field [ "referer"; "protocol"; "pid"; "port"; "ip"; "ips"; "host";
                 "path"; "url"; "ua"; "latency"; "status"; "resBody";
                 "queryParams"; "body"; "bytesReceived"; "bytesSent"; "route";
                 "method"; "requestId"; "error"; "reqHeaders" ].
Proof.
  change (recognized field <-> In field FieldTags). split.
  - intros (pid & c & fc & latency & err & zc & Hne).
    destruct (in_dec string_dec field FieldTags) as [Hin | Hout]; [exact Hin |].
    exfalso. apply Hne. now apply addField_unrecognized.
  - intros Hin.
    exists 42%Z, ConfigDefault, Sample.ctx, 1500%Z, (Some (PlainError "boom")), [].
    unfold FieldTags in Hin. simpl in Hin.
    repeat (destruct Hin as [<- | Hin]; [discriminate |]).
    contradiction.
Qed.

Lemma recognized_tags_witness :
  recognized "ua" /\ recognized "resBody" /\ recognized "reqHeaders".
Proof.
  split; [| split]; apply recognized_tags; simpl; tauto.
Defined.

(** C7: when SkipBody returns true the body tag attaches nothing, and the
    record has no body key (none coming from the logger's own context or
    from a request header of that name); when SkipBody is absent or
    returns false and the body tag is listed, the record holds the request
    body under the body key.  The same holds for SkipResBody and the
    response-body tag. *)
Theorem skip_predicates (pid : Z) (c : Config) (fc : Ctx) (latency : Z)
    (err : option GoError) (base : Context) :
  loggerCtx c fc = Some base ->
  exists l,
    logger pid c fc latency err = Some l
    /\ (forall skip, SkipBody c = Some skip -> skip fc = true ->
          contribution pid c fc latency err FieldBody = []
          /\ (keyOnlyFromTag c fc base FieldBody ->
              ~ In FieldBody (keys (context l))))
    /\ (notSkipped (SkipBody c) fc -> In FieldBody (elems (Fields c)) ->
          In (FieldBody, VBytes (Body fc)) (context l))
    /\ (forall skip, SkipResBody c = Some skip -> skip fc = true ->
          contribution pid c fc latency err FieldResBody = []
          /\ (keyOnlyFromTag c fc base FieldResBody ->
              ~ In FieldResBody (keys (context l))))
    /\ (notSkipped (SkipResBody c) fc -> In FieldResBody (elems (Fields c)) ->
          exists body, In (FieldResBody, VBytes body) (context l)).
Proof.
  intros Hbase. eexists.
  split; [apply logger_record with (base := base); exact Hbase |].
  simpl. split; [| split; [| split]].
  - intros skip Hskip Htrue.
    assert (Hnil : contribution pid c fc latency err FieldBody = []).
    { rewrite contribution_body, Hskip, Htrue. reflexivity. }
    split; [exact Hnil |].
    intros Honly Hin.
    destruct (record_key_origin pid c fc latency err base _ Honly Hin) as [v [_ Hv]].
    rewrite Hnil in Hv. exact Hv.
  - intros Hns Hlisted. apply record_contains with (field := FieldBody); [exact Hlisted |].
    rewrite contribution_body.
    destruct Hns as [-> | [skip [-> ->]]]; now left.
  - intros skip Hskip Htrue.
    assert (Hnil : contribution pid c fc latency err FieldResBody = []).
    { rewrite contribution_resBody. simpl. rewrite Hskip, Htrue. reflexivity. }
    split; [exact Hnil |].
    intros Honly Hin.
    destruct (record_key_origin pid c fc latency err base _ Honly Hin) as [v [_ Hv]].
    rewrite Hnil in Hv. exact Hv.
  - intros Hns Hlisted. eexists.
    apply record_contains with (field := FieldResBody); [exact Hlisted |].
    rewrite contribution_resBody. simpl.
    destruct Hns as [-> | [skip [-> ->]]]; left; reflexivity.
Qed.

Lemma skip_predicates_witness :
  exists l,
    logger 42 Sample.skipAll Sample.ctx 1500 None = Some l
    /\ ~ In FieldBody (keys (context l))
    /\ ~ In FieldResBody (keys (context l)).
Proof.
  destruct (skip_predicates 42 Sample.skipAll Sample.ctx 1500 None [] eq_refl)
    as [l [Hl [Hbody [_ [Hres _]]]]].
  exists l. split; [exact Hl |].
  assert (Honly : forall k, keyOnlyFromTag Sample.skipAll Sample.ctx [] k).
  { intros k. split; [intros [] |].
    simpl. intros [H | [H | [H | [H | []]]]]; discriminate H. }
  split.
  - apply (Hbody (fun _ => true) eq_refl eq_refl). apply Honly.
  - apply (Hres (fun _ => true) eq_refl eq_refl). apply Honly.
Defined.

(** C8: with the response-body tag listed and not skipped, the value under
    the response-body key is what GetResBody returns when it is
    configured, and the raw response body when it is not; no other value
    sits under that key (the logger's own context and the request headers
    not using it). *)
Theorem response_body_override (pid : Z) (c : Config) (fc : Ctx) (latency : Z)
    (err : option GoError) (base : Context) :
  loggerCtx c fc = Some base ->
  In FieldResBody (elems (Fields c)) ->
  notSkipped (SkipResBody c) fc ->
  exists l,
    logger pid c fc latency err = Some l
    /\ (forall get, GetResBody c = Some get ->
          In (FieldResBody, VBytes (get fc)) (context l)
          /\ (keyOnlyFromTag c fc base FieldResBody ->
              forall v, In (FieldResBody, v) (context l) -> v = VBytes (get fc)))
    /\ (GetResBody c = None ->
          In (FieldResBody, VBytes (ResponseBody fc)) (context l)
          /\ (keyOnlyFromTag c fc base FieldResBody ->
              forall v, In (FieldResBody, v) (context l) ->
                        v = VBytes (ResponseBody fc))).
Proof.
  intros Hbase Hlisted Hns. eexists.
  split; [apply logger_record with (base := base); exact Hbase |].
  simpl.
  assert (Hcontrib : contribution pid c fc latency err FieldResBody
                     = [(FieldResBody,
                         VBytes match GetResBody c with
                                | None => ResponseBody fc
                                | Some get => get fc
                                end)]).
  { rewrite contribution_resBody. simpl.
    destruct Hns as [-> | [skip [-> ->]]]; reflexivity. }
  split.
  - intros get Hget. rewrite Hget in Hcontrib. split.
    + apply record_contains with (field := FieldResBody); [exact Hlisted |].
      rewrite Hcontrib. now left.
    + intros Honly v Hin.
      destruct (record_pair_origin pid c fc latency err base FieldResBody v Honly Hin)
        as [_ Hv].
      rewrite Hcontrib in Hv. destruct Hv as [Heq | []]. congruence.
  - intros Hget. rewrite Hget in Hcontrib. split.
    + apply record_contains with (field := FieldResBody); [exact Hlisted |].
      rewrite Hcontrib. now left.
    + intros Honly v Hin.
      destruct (record_pair_origin pid c fc latency err base FieldResBody v Honly Hin)
        as [_ Hv].
      rewrite Hcontrib in Hv. destruct Hv as [Heq | []]. congruence.
Qed.

Lemma response_body_override_witness :
  exists l,
    logger 42 Sample.override Sample.ctx 1500 None = Some l
    /\ In (FieldResBody, VBytes (Sample.bytes "plain")) (context l)
    /\ ~ In (FieldResBody, VBytes (Sample.bytes "not found")) (context l).
Proof.
  assert (Hlisted : In FieldResBody (elems (Fields Sample.override))).
  { simpl. right. right. left. reflexivity. }
  assert (Hns : notSkipped (SkipResBody Sample.override) Sample.ctx).
  { right. exists (fun _ => false). split; reflexivity. }
  destruct (response_body_override 42 Sample.override Sample.ctx 1500 None
              [] eq_refl Hlisted Hns)
    as [l [Hl [Hget _]]].
  destruct (Hget (fun _ => Sample.bytes "plain") eq_refl) as [Hin Huniq].
  exists l. split; [exact Hl |]. split; [exact Hin |].
  intros Hraw. apply Huniq in Hraw.
  - discriminate Hraw.
  - split; [intros [] |].
    simpl. intros [H | [H | [H | [H | []]]]]; discriminate H.
Defined.

(** C9, as stated, fails: a handler error that is a non-nil interface
    holding a nil pointer is non-nil, yet [zc.Err] drops it, so with the
    error tag listed the record has no error key. *)
Lemma nil_value_error_counterexample :
  ~ (forall (err : option GoError) (l : Zerolog.Logger),
        In FieldError (elems (Fields ConfigDefault)) ->
        logger 42 ConfigDefault Sample.ctx 1500 err = Some l ->
        (In FieldError (keys (context l)) <-> err <> None)).
Proof.
  intros H.
  assert (Hlisted : In FieldError (elems (Fields ConfigDefault))).
  { simpl. do 4 right. left. reflexivity. }
  destruct (H (Some NilValueError) _ Hlisted eq_refl) as [_ Hback].
  assert (Hin : In FieldError ["latency"; "status"; "method"; "url"]).
  { apply Hback. discriminate. }
  simpl in Hin.
  destruct Hin as [E | [E | [E | [E | []]]]]; discriminate E.
Qed.

(** C9, amended: with the error tag listed, the error field is attached
    only if the handler's error is non-nil: a nil error attaches nothing
    and no error key appears.  A non-nil error is attached under the error
    key, as its message or, when it marshals itself, as an object, unless
    it holds a nil pointer, in which case it is dropped.  So the record has
    an error key if and only if the error is non-nil and does not hold a
    nil pointer (the logger's own context and the request headers not
    using that key). *)
Theorem error_field (pid : Z) (c : Config) (fc : Ctx) (latency : Z)
    (err : option GoError) (base : Context) :
  loggerCtx c fc = Some base ->
  In FieldError (elems (Fields c)) ->
  exists l,
    logger pid c fc latency err = Some l
    /\ (forall msg, err = Some (PlainError msg) ->
        In (FieldError, VStr msg) (context l))
    /\ (forall obj, err = Some (MarshalerError obj) ->
        In (FieldError, VObject obj) (context l))
    /\ (err = None \/ err = Some NilValueError ->
        contribution pid c fc latency err FieldError = [])
    /\ (keyOnlyFromTag c fc base FieldError ->
        (In FieldError (keys (context l))
         <-> (err <> None /\ err <> Some NilValueError)))
    /\ (keyOnlyFromTag c fc base FieldError ->
        err = None -> ~ In FieldError (keys (context l))).
Proof.
  intros Hbase Hlisted. eexists.
  split; [apply logger_record with (base := base); exact Hbase |].
  simpl.
  assert (Hiff : keyOnlyFromTag c fc base FieldError ->
            (In FieldError
                (keys (base ++ flat_map (contribution pid c fc latency err) (elems (Fields c))))
             <-> (err <> None /\ err <> Some NilValueError))).
  { intros Honly. split.
    - intros Hin.
      destruct (record_key_origin pid c fc latency err base _ Honly Hin) as [v [_ Hv]].
      rewrite contribution_error in Hv.
      destruct err as [[obj | | msg] |]; try contradiction; split; discriminate.
    - intros [Hsome Hnil].
      assert (Hpair : exists v, In (FieldError, v) (contribution pid c fc latency err FieldError)).
      { rewrite contribution_error.
        destruct err as [[obj | | msg] |]; try congruence; eexists; left; reflexivity. }
      destruct Hpair as [v Hv].
      unfold keys. apply in_map_iff. exists (FieldError, v). split; [reflexivity |].
      now apply record_contains with (field := FieldError). }
  split; [| split; [| split; [| split]]].
  - intros msg ->. apply record_contains with (field := FieldError); [exact Hlisted |].
    rewrite contribution_error. now left.
  - intros obj ->. apply record_contains with (field := FieldError); [exact Hlisted |].
    rewrite contribution_error. now left.
  - intros [-> | ->]; now rewrite contribution_error.
  - exact Hiff.
  - intros Honly -> Hin. apply (Hiff Honly) in Hin. destruct Hin as [Hne _]. now apply Hne.
Qed.

Lemma error_field_witness :
  exists l,
    logger 42 ConfigDefault Sample.ctx 1500 (Some (PlainError "boom")) = Some l
    /\ In (FieldError, VStr "boom") (context l)
    /\ In FieldError (keys (context l)).
Proof.
  assert (Hlisted : In FieldError (elems (Fields ConfigDefault))).
  { simpl. do 4 right. left. reflexivity. }
  destruct (error_field 42 ConfigDefault Sample.ctx 1500 (Some (PlainError "boom"))
              [] eq_refl Hlisted)
    as [l [Hl [Hplain [_ [_ [Hiff _]]]]]].
  exists l. split; [exact Hl |]. split; [now apply Hplain |].
  apply Hiff; [| split; discriminate].
  split; [intros [] |].
  simpl. intros [H | [H | [H | [H | [H | []]]]]]; discriminate H.
Defined.


(** ** Further properties of the record builder and of resolution *)

Example sample_per_request :
  option_map context (logger 42 Sample.perRequest Sample.ctx 1500 None)
  = Some [ ("trace", VStr "/items/7"); ("status", VInt 404);
           ("Accept", VBytes (Sample.bytes "*/*"));
           ("Host", VBytes (Sample.bytes "example.org"));
           ("bytesSent", VInt 9); ("status", VInt 404) ].
Proof. reflexivity. Qed.

Lemma addField_withFields (pid : Z) (c : Config) (fields : list string) (fc : Ctx)
    (latency : Z) (err : option GoError) :
  addField pid (withFields c fields) fc latency err = addField pid c fc latency err.
Proof. reflexivity. Qed.

Lemma contribution_length (pid : Z) (c : Config) (fc : Ctx) (latency : Z)
    (err : option GoError) (field : string) :
  length (contribution pid c fc latency err field)
  <= if field =? FieldReqHeaders then length (ReqHeaders fc) else 1.
Proof.
  destruct (String.eqb_spec field FieldReqHeaders) as [-> | Hne].
  - rewrite contribution_headers. now rewrite length_map.
  - destruct (contribution_single pid c fc latency err field Hne) as [-> | [v ->]];
      simpl; lia.
Qed.

Lemma contribution_unguarded (pid : Z) (c : Config) (fc : Ctx) (latency : Z)
    (err : option GoError) (field : string) :
  In field UnguardedTags ->
  exists v, contribution pid c fc latency err field = [(field, v)].
Proof.
  intros Hin. unfold UnguardedTags in Hin. simpl in Hin.
  repeat (destruct Hin as [<- | Hin]; [eexists; reflexivity |]).
  contradiction.
Qed.

Lemma count_occ_filter (p : string -> bool) (l : list string) (k : string) :
  count_occ string_dec (filter p l) k
  = if p k then count_occ string_dec l k else 0.
Proof.
  induction l as [| x l IH]; simpl.
  - now destruct (p k).
  - destruct (string_dec x k) as [-> | Hne].
    + destruct (p k) eqn:Hp; simpl.
      * destruct (string_dec k k); [now rewrite IH | congruence].
      * exact IH.
    + destruct (p x); simpl; [| exact IH].
      destruct (string_dec x k); [congruence | exact IH].
Qed.

Lemma record_keys_without_headers (pid : Z) (c : Config) (fc : Ctx) (latency : Z)
    (err : option GoError) (base : Context) (fields : list string) :
  ~ In FieldReqHeaders fields ->
  keys (base ++ flat_map (contribution pid c fc latency err) fields)
  = keys base ++ filter (attaches pid c fc latency err) fields.
Proof.
  intros Hno. rewrite keys_app, keys_flat_map. f_equal.
  rewrite <- (flat_map_without_headers (headerKeys fc) _ fields Hno).
  apply flat_map_ext. intros f. apply keys_contribution.
Qed.

(** X3: resolution is idempotent, and only the first supplied
    configuration counts: resolving an already resolved configuration
    changes nothing, and further variadic arguments are ignored. *)
Theorem configDefault_idempotent (def cfg : Config) (rest : list Config) :
  configDefault def [configDefault def (cfg :: rest)] = configDefault def (cfg :: rest)
  /\ configDefault def (cfg :: rest) = configDefault def [cfg].
Proof.
  split; [| reflexivity].
  assert (Hor : forall (A : Type) (x d : option A),
             orDefault (orDefault x d) d = orDefault x d).
  { intros A [a |] [d |]; reflexivity. }
  simpl. now rewrite !Hor.
Qed.

(** X4: resolved against a default whose Logger, Fields, Messages and
    Levels are set, every configuration comes out with these four options
    set. *)
Theorem resolved_config_complete (def : Config) (configs : list Config) :
  Logger def <> None -> Fields def <> None ->
  Messages def <> None -> Levels def <> None ->
  Logger (configDefault def configs) <> None
  /\ Fields (configDefault def configs) <> None
  /\ Messages (configDefault def configs) <> None
  /\ Levels (configDefault def configs) <> None.
Proof.
  intros Hl Hf Hm Hv. destruct configs as [| cfg rest]; simpl.
  - now repeat split.
  - repeat split.
    + destruct (Logger cfg); [discriminate | exact Hl].
    + destruct (Fields cfg); [discriminate | exact Hf].
    + destruct (Messages cfg); [discriminate | exact Hm].
    + destruct (Levels cfg); [discriminate | exact Hv].
Qed.

Lemma resolved_config_complete_witness :
  Logger (configDefault ConfigDefault [Sample.emptyLists]) <> None
  /\ Fields (configDefault ConfigDefault [Sample.emptyLists]) <> None
  /\ Messages (configDefault ConfigDefault [Sample.emptyLists]) <> None
  /\ Levels (configDefault ConfigDefault [Sample.emptyLists]) <> None.
Proof.
  apply (resolved_config_complete ConfigDefault [Sample.emptyLists]); discriminate.
Defined.

(** X5: building the record for a concatenated field list is building it
    for the first list and then running the loop over the second list on
    that record. *)
Theorem logger_fields_app (pid : Z) (c : Config) (fc : Ctx) (latency : Z)
    (err : option GoError) (base : Context) (fields1 fields2 : list string) :
  loggerCtx c fc = Some base ->
  exists l1 l,
    logger pid (withFields c fields1) fc latency err = Some l1
    /\ logger pid (withFields c (fields1 ++ fields2)) fc latency err = Some l
    /\ context l = fold_left (addField pid c fc latency err) fields2 (context l1)
    /\ context l
       = context l1 ++ flat_map (contribution pid c fc latency err) fields2.
Proof.
  intros Hbase.
  assert (Hctx : forall fs, loggerCtx (withFields c fs) fc = Some base) by (intros fs; exact Hbase).
  exists (ToLogger (fold_left (addField pid c fc latency err) fields1 base)).
  exists (ToLogger (fold_left (addField pid c fc latency err) (fields1 ++ fields2) base)).
  split; [unfold logger; rewrite Hctx; reflexivity |].
  split; [unfold logger; rewrite Hctx; reflexivity |].
  simpl. split.
  - apply fold_left_app.
  - rewrite fold_left_app. apply fold_addField.
Qed.

Lemma logger_fields_app_witness :
  exists l1 l,
    logger 42 (withFields ConfigDefault ["status"; "method"]) Sample.ctx 1500 None = Some l1
    /\ logger 42 (withFields ConfigDefault ["status"; "method"; "url"; "ua"])
              Sample.ctx 1500 None = Some l
    /\ context l = context l1 ++ [("url", VStr "/items/7?full=1"); ("ua", VStr "curl/8.0")].
Proof.
  destruct (logger_fields_app 42 ConfigDefault Sample.ctx 1500 None []
              ["status"; "method"] ["url"; "ua"] eq_refl)
    as [l1 [l [H1 [H [_ Happ]]]]].
  exists l1, l. split; [exact H1 |]. split; [exact H |]. exact Happ.
Defined.

(** X6: [logger] only extends the context it starts from: the record is
    the logger's own pairs, unchanged and in place, followed by the added
    pairs.  A tag adds at most one pair, except the request-headers tag,
    which adds at most one per request header. *)
Theorem logger_extends_base (pid : Z) (c : Config) (fc : Ctx) (latency : Z)
    (err : option GoError) (base : Context) :
  loggerCtx c fc = Some base ->
  exists l added,
    logger pid c fc latency err = Some l
    /\ context l = base ++ added
    /\ length added
       <= length (elems (Fields c))
          + count_occ string_dec (elems (Fields c)) FieldReqHeaders
            * length (ReqHeaders fc)
    /\ (~ In FieldReqHeaders (elems (Fields c)) ->
        length added <= length (elems (Fields c))).
Proof.
  intros Hbase.
  exists (ToLogger (base ++ flat_map (contribution pid c fc latency err) (elems (Fields c)))).
  exists (flat_map (contribution pid c fc latency err) (elems (Fields c))).
  split; [apply logger_record; exact Hbase |].
  split; [reflexivity |].
  assert (Hlen : forall fs,
             length (flat_map (contribution pid c fc latency err) fs)
             <= length fs + count_occ string_dec fs FieldReqHeaders * length (ReqHeaders fc)).
  { induction fs as [| f fs IH]; simpl; [lia |].
    rewrite length_app.
    pose proof (contribution_length pid c fc latency err f) as Hf.
    destruct (string_dec f FieldReqHeaders) as [-> | Hne].
    - rewrite String.eqb_refl in Hf. simpl. lia.
    - apply String.eqb_neq in Hne. rewrite Hne in Hf. lia. }
  split; [apply Hlen |].
  intros Hno. pose proof (Hlen (elems (Fields c))) as H.
  rewrite (proj1 (count_occ_not_In string_dec _ _) Hno) in H. lia.
Qed.

Lemma logger_extends_base_witness :
  exists l added,
    logger 42 Sample.perRequest Sample.ctx 1500 None = Some l
    /\ context l = [("trace", VStr "/items/7")] ++ added
    /\ length added <= 4 + 1 * 2.
Proof.
  destruct (logger_extends_base 42 Sample.perRequest Sample.ctx 1500 None
              [("trace", VStr "/items/7")] eq_refl)
    as [l [added [Hl [Hctx [Hlen _]]]]].
  exists l, added. split; [exact Hl |]. split; [exact Hctx |]. exact Hlen.
Defined.

(** X7: nothing is deduplicated.  For a field list without the
    request-headers tag, a key occurs in the record as often as in the
    logger's own context plus, when its tag attaches, as often as the tag
    is listed. *)
Theorem key_multiplicity (pid : Z) (c : Config) (fc : Ctx) (latency : Z)
    (err : option GoError) (base : Context) (k : string) :
  loggerCtx c fc = Some base ->
  ~ In FieldReqHeaders (elems (Fields c)) ->
  exists l,
    logger pid c fc latency err = Some l
    /\ count_occ string_dec (keys (context l)) k
       = count_occ string_dec (keys base) k
         + (if attaches pid c fc latency err k
            then count_occ string_dec (elems (Fields c)) k
            else 0).
Proof.
  intros Hbase Hno. eexists. split; [apply logger_record; exact Hbase |].
  simpl. rewrite record_keys_without_headers by exact Hno.
  rewrite count_occ_app. f_equal. apply count_occ_filter.
Qed.

Lemma key_multiplicity_witness :
  exists l,
    logger 42 (withFields ConfigDefault ["status"; "error"; "status"; "error"])
           Sample.ctx 1500 None = Some l
    /\ count_occ string_dec (keys (context l)) "status" = 2
    /\ count_occ string_dec (keys (context l)) "error" = 0.
Proof.
  assert (Hno : ~ In FieldReqHeaders ["status"; "error"; "status"; "error"]).
  { simpl. intros [H | [H | [H | [H | []]]]]; discriminate H. }
  destruct (key_multiplicity 42 (withFields ConfigDefault ["status"; "error"; "status"; "error"])
              Sample.ctx 1500 None [] "status" eq_refl Hno) as [l [Hl Hs]].
  destruct (key_multiplicity 42 (withFields ConfigDefault ["status"; "error"; "status"; "error"])
              Sample.ctx 1500 None [] "error" eq_refl Hno) as [l' [Hl' He]].
  exists l. split; [exact Hl |]. split; [exact Hs |].
  assert (l' = l) by congruence. subst l'. exact He.
Defined.

(** X8: the record depends on SkipBody, SkipResBody, GetResBody, Logger,
    GetLogger and Fields only: two configurations that agree on these six
    options build the same record, whatever their Next, SkipURIs, Messages
    and Levels. *)
Theorem logger_frame (pid : Z) (c c' : Config) (fc : Ctx) (latency : Z)
    (err : option GoError) :
  SkipBody c' = SkipBody c -> SkipResBody c' = SkipResBody c ->
  GetResBody c' = GetResBody c -> Logger c' = Logger c ->
  GetLogger c' = GetLogger c -> Fields c' = Fields c ->
  logger pid c' fc latency err = logger pid c fc latency err.
Proof.
  intros Hb Hr Hg Hl Hgl Hf.
  assert (Hstep : forall zc f,
             addField pid c' fc latency err zc f = addField pid c fc latency err zc f).
  { intros zc f. unfold addField. now rewrite Hb, Hr, Hg. }
  unfold logger, loggerCtx. rewrite Hl, Hgl, Hf.
  assert (Hfold : forall fs zc,
             fold_left (addField pid c' fc latency err) fs zc
             = fold_left (addField pid c fc latency err) fs zc).
  { induction fs as [| f fs IH]; intros zc; simpl; [reflexivity |].
    now rewrite Hstep, IH. }
  destruct (GetLogger c); [now rewrite Hfold |].
  destruct (Logger c); [now rewrite Hfold | reflexivity].
Qed.

Lemma logger_frame_witness :
  logger 42 Sample.override Sample.ctx 1500 None
  = logger 42 (configDefault ConfigDefault [Sample.override]) Sample.ctx 1500 None.
Proof.
  apply (logger_frame 42 (configDefault ConfigDefault [Sample.override]) Sample.override
           Sample.ctx 1500 None); reflexivity.
Defined.

(** X9: the byte counts are those of the raw payloads.  When listed, the
    bytesSent tag carries the length of the raw response body and the
    bytesReceived tag the length of the raw request body, both
    non-negative, whatever the skip predicates answer and whether or not a
    response-body getter is configured. *)
Theorem byte_counts (pid : Z) (c : Config) (fc : Ctx) (latency : Z)
    (err : option GoError) (base : Context) :
  loggerCtx c fc = Some base ->
  exists l,
    logger pid c fc latency err = Some l
    /\ (In FieldBytesSent (elems (Fields c)) ->
        In (FieldBytesSent, VInt (Z.of_nat (length (ResponseBody fc)))) (context l))
    /\ (In FieldBytesReceived (elems (Fields c)) ->
        In (FieldBytesReceived, VInt (Z.of_nat (length (RequestBody fc)))) (context l))
    /\ (keyOnlyFromTag c fc base FieldBytesSent ->
        forall v, In (FieldBytesSent, v) (context l) ->
                  exists n, v = VInt n /\ (0 <= n)%Z
                            /\ n = Z.of_nat (length (ResponseBody fc)))
    /\ (keyOnlyFromTag c fc base FieldBytesReceived ->
        forall v, In (FieldBytesReceived, v) (context l) ->
                  exists n, v = VInt n /\ (0 <= n)%Z
                            /\ n = Z.of_nat (length (RequestBody fc))).
Proof.
  intros Hbase. eexists. split; [apply logger_record; exact Hbase |].
  simpl. split; [| split; [| split]].
  - intros Hlisted. apply record_contains with (field := FieldBytesSent);
      [exact Hlisted | now left].
  - intros Hlisted. apply record_contains with (field := FieldBytesReceived);
      [exact Hlisted | now left].
  - intros Honly v Hin.
    destruct (record_pair_origin pid c fc latency err base _ v Honly Hin) as [_ Hv].
    destruct Hv as [Heq | []]. injection Heq as <-.
    eexists. split; [reflexivity |]. split; [lia | reflexivity].
  - intros Honly v Hin.
    destruct (record_pair_origin pid c fc latency err base _ v Honly Hin) as [_ Hv].
    destruct Hv as [Heq | []]. injection Heq as <-.
    eexists. split; [reflexivity |]. split; [lia | reflexivity].
Qed.

Lemma byte_counts_witness :
  exists l,
    logger 42 Sample.perRequest Sample.ctx 1500 None = Some l
    /\ In (FieldBytesSent, VInt 9) (context l).
Proof.
  destruct (byte_counts 42 Sample.perRequest Sample.ctx 1500 None
              [("trace", VStr "/items/7")] eq_refl) as [l [Hl [Hsent _]]].
  exists l. split; [exact Hl |].
  apply Hsent. simpl. right. right. left. reflexivity.
Defined.

(** X10: a field list made of unguarded tags only (any tag but resBody,
    body, error, reqHeaders and port) is reproduced exactly: the added
    keys are the configured list, one pair per listed tag. *)
Theorem unguarded_tags_keys (pid : Z) (c : Config) (fc : Ctx) (latency : Z)
    (err : option GoError) (base : Context) :
  loggerCtx c fc = Some base ->
  (forall f, In f (elems (Fields c)) -> In f UnguardedTags) ->
  exists l,
    logger pid c fc latency err = Some l
    /\ keys (context l) = keys base ++ elems (Fields c)
    /\ length (context l) = length base + length (elems (Fields c)).
Proof.
  intros Hbase Hall. eexists. split; [apply logger_record; exact Hbase |].
  simpl.
  assert (Hkeys : forall fs, (forall f, In f fs -> In f UnguardedTags) ->
             keys (flat_map (contribution pid c fc latency err) fs) = fs).
  { induction fs as [| f fs IH]; intros Hfs; simpl; [reflexivity |].
    destruct (contribution_unguarded pid c fc latency err f (Hfs f (or_introl eq_refl)))
      as [v ->].
    simpl. f_equal. apply IH. intros g Hg. apply Hfs. now right. }
  split.
  - rewrite keys_app. now rewrite Hkeys.
  - rewrite length_app. f_equal.
    rewrite <- (Hkeys _ Hall) at 2. unfold keys. now rewrite length_map.
Qed.

Lemma unguarded_tags_keys_witness :
  exists l,
    logger 42 (withFields ConfigDefault ["ua"; "status"; "ua"; "pid"]) Sample.ctx 1500 None
    = Some l
    /\ keys (context l) = ["ua"; "status"; "ua"; "pid"].
Proof.
  destruct (unguarded_tags_keys 42 (withFields ConfigDefault ["ua"; "status"; "ua"; "pid"])
              Sample.ctx 1500 None [] eq_refl) as [l [Hl [Hk _]]].
  - simpl. unfold UnguardedTags.
    intros f [<- | [<- | [<- | [<- | []]]]]; simpl; tauto.
  - exists l. split; [exact Hl | exact Hk].
Defined.

(** X11: the request-headers tag attaches every visited header as its own
    pair, keyed by the header name and carrying the header value, in
    visiting order and without merging headers of the same name; listed
    alone it adds exactly these pairs. *)
Theorem request_headers_expansion (pid : Z) (c : Config) (fc : Ctx) (latency : Z)
    (err : option GoError) (base : Context) :
  loggerCtx c fc = Some base ->
  (exists l,
     logger pid (withFields c [FieldReqHeaders]) fc latency err = Some l
     /\ context l = base ++ headerPairs fc
     /\ length (context l) = length base + length (ReqHeaders fc))
  /\ (In FieldReqHeaders (elems (Fields c)) ->
      exists l,
        logger pid c fc latency err = Some l
        /\ forall k v, In (k, v) (ReqHeaders fc) ->
                       In (string_of_list_byte k, VBytes v) (context l)).
Proof.
  intros Hbase. split.
  - eexists. split; [apply logger_record with (base := base); exact Hbase |].
    simpl. rewrite contribution_headers, app_nil_r. split; [reflexivity |].
    rewrite length_app. unfold headerPairs. now rewrite length_map.
  - intros Hlisted. eexists. split; [apply logger_record; exact Hbase |].
    intros k v Hkv. simpl.
    apply record_contains with (field := FieldReqHeaders); [exact Hlisted |].
    rewrite contribution_headers. apply in_map_iff. now exists (k, v).
Qed.

Lemma request_headers_expansion_witness :
  exists l,
    logger 42 (withFields ConfigDefault [FieldReqHeaders]) Sample.ctx 1500 None = Some l
    /\ context l = [ ("Accept", VBytes (Sample.bytes "*/*"));
                     ("Host", VBytes (Sample.bytes "example.org")) ].
Proof.
  destruct (request_headers_expansion 42 ConfigDefault Sample.ctx 1500 None [] eq_refl)
    as [[l [Hl [Hctx _]]] _].
  exists l. split; [exact Hl | exact Hctx].
Defined.

(** X12: with no field list supplied, a resolved configuration logs the
    five default fields: latency, status, method and url, in that order,
    then what [zc.Err] writes for the handler's error: nothing for a nil
    error or one holding a nil pointer, the message for a plain error, an
    object for an error that marshals itself.  With no configuration at
    all these pairs are the whole record. *)
Theorem default_fields_record (pid : Z) (fc : Ctx) (latency : Z) (err : option GoError) :
  let pairs :=
    [ (FieldLatency, VDur latency); (FieldStatus, VInt (StatusCode fc));
      (FieldMethod, VStr (Method fc)); (FieldURL, VStr (OriginalURL fc)) ]
    ++ match err with
       | Some (MarshalerError obj) => [(FieldError, VObject obj)]
       | Some (PlainError msg) => [(FieldError, VStr msg)]
       | Some NilValueError | None => []
       end in
  logger pid (configDefault ConfigDefault []) fc latency err = Some (ToLogger pairs)
  /\ forall cfg rest,
       Fields cfg = None ->
       exists base,
         loggerCtx (configDefault ConfigDefault (cfg :: rest)) fc = Some base
         /\ logger pid (configDefault ConfigDefault (cfg :: rest)) fc latency err
            = Some (ToLogger (base ++ pairs)).
Proof.
  intros pairs. split.
  - unfold pairs. destruct err as [[obj | | msg] |]; reflexivity.
  - intros cfg rest Hf.
    assert (Hctx : exists base,
               loggerCtx (configDefault ConfigDefault (cfg :: rest)) fc = Some base).
    { unfold loggerCtx. simpl. destruct (GetLogger cfg); [eexists; reflexivity |].
      destruct (Logger cfg); eexists; reflexivity. }
    destruct Hctx as [base Hbase]. exists base. split; [exact Hbase |].
    rewrite (logger_record pid _ fc latency err base Hbase).
    simpl. rewrite Hf. unfold pairs. destruct err as [[obj | | msg] |]; reflexivity.
Qed.

Lemma default_fields_record_witness :
  exists base,
    loggerCtx (configDefault ConfigDefault [Sample.emptyLists]) Sample.ctx = Some base
    /\ logger 42 (configDefault ConfigDefault [Sample.emptyLists]) Sample.ctx 1500 (Some (PlainError "boom"))
       = Some (ToLogger (base ++ [ ("latency", VDur 1500); ("status", VInt 404);
                                   ("method", VStr "GET"); ("url", VStr "/items/7?full=1");
                                   ("error", VStr "boom") ])).
Proof.
  destruct (default_fields_record 42 Sample.ctx 1500 (Some (PlainError "boom"))) as [_ H].
  apply (H Sample.emptyLists []). reflexivity.
Defined.

(** X13: an empty, non-nil field list is kept by resolution, and the
    record then holds the logger's own pairs and nothing else. *)
Theorem empty_fields_survive (pid : Z) (def cfg : Config) (rest : list Config)
    (fc : Ctx) (latency : Z) (err : option GoError) :
  Fields cfg = Some [] ->
  Fields (configDefault def (cfg :: rest)) = Some []
  /\ forall base,
       loggerCtx (configDefault def (cfg :: rest)) fc = Some base ->
       logger pid (configDefault def (cfg :: rest)) fc latency err
       = Some (ToLogger base).
Proof.
  intros Hf.
  assert (Hres : Fields (configDefault def (cfg :: rest)) = Some []).
  { simpl. now rewrite Hf. }
  split; [exact Hres |].
  intros base Hbase. unfold logger. rewrite Hbase, Hres. reflexivity.
Qed.

Lemma empty_fields_survive_witness :
  logger 42 (configDefault ConfigDefault [withFields Sample.override []])
         Sample.ctx 1500 (Some (PlainError "boom"))
  = Some (ToLogger []).
Proof.
  destruct (empty_fields_survive 42 ConfigDefault (withFields Sample.override []) []
              Sample.ctx 1500 (Some (PlainError "boom")) eq_refl) as [_ H].
  apply H. reflexivity.
Defined.

(** X14: GetLogger overrides Logger.  When a per-request logger factory is
    set, the record is built on the context of the logger it returns for
    this request, and the static Logger, set or nil, has no influence. *)
Theorem getLogger_overrides (pid : Z) (c : Config) (fc : Ctx) (latency : Z)
    (err : option GoError) (get : Ctx -> Zerolog.Logger)
    (other : option Zerolog.Logger) :
  GetLogger c = Some get ->
  logger pid (withLogger c other) fc latency err = logger pid c fc latency err
  /\ logger pid c fc latency err
     = Some (ToLogger (fold_left (addField pid c fc latency err)
                                 (elems (Fields c)) (context (get fc)))).
Proof.
  intros Hget. unfold logger, loggerCtx. simpl. rewrite Hget.
  split; reflexivity.
Qed.

Lemma getLogger_overrides_witness :
  logger 42 (withLogger Sample.perRequest (Some defaultLogger)) Sample.ctx 1500 None
  = logger 42 Sample.perRequest Sample.ctx 1500 None.
Proof.
  apply (getLogger_overrides 42 Sample.perRequest Sample.ctx 1500 None
           (fun fc => mkLogger [("trace", VStr (Path fc))]) (Some defaultLogger)).
  reflexivity.
Defined.

(** X15: the order of the field list affects only the order of the
    record: two field lists that are permutations of each other yield
    records whose added pairs are permutations of each other, after the
    same logger's own pairs. *)
Theorem logger_permutation (pid : Z) (c : Config) (fc : Ctx) (latency : Z)
    (err : option GoError) (base : Context) (fields fields' : list string) :
  loggerCtx c fc = Some base ->
  Permutation fields fields' ->
  exists added added',
    logger pid (withFields c fields) fc latency err = Some (ToLogger (base ++ added))
    /\ logger pid (withFields c fields') fc latency err = Some (ToLogger (base ++ added'))
    /\ Permutation added added'.
Proof.
  intros Hbase Hperm.
  exists (flat_map (contribution pid c fc latency err) fields).
  exists (flat_map (contribution pid c fc latency err) fields').
  split; [apply (logger_record pid (withFields c fields) fc latency err base Hbase) |].
  split; [apply (logger_record pid (withFields c fields') fc latency err base Hbase) |].
  now apply Permutation_flat_map.
Qed.

Lemma logger_permutation_witness :
  exists added added',
    logger 42 (withFields ConfigDefault ["status"; "method"]) Sample.ctx 1500 None
    = Some (ToLogger ([] ++ added))
    /\ logger 42 (withFields ConfigDefault ["method"; "status"]) Sample.ctx 1500 None
       = Some (ToLogger ([] ++ added'))
    /\ Permutation added added'.
Proof.
  apply (logger_permutation 42 ConfigDefault Sample.ctx 1500 None []
           ["status"; "method"] ["method"; "status"] eq_refl).
  apply perm_swap.
Defined.
